(** * record-ext: a browser extension that records and replays user flows

    A shallow embedding of the content script (content.js: locator
    generation and resolution, step capture, replay executors) and of the
    side panel (record.js: replay engine and cross-context messenger),
    followed by the properties proved about them.

    JavaScript strings are modelled by [string]: a sequence of code units,
    here restricted to the code units below 256.  A DOM element is a record
    of the properties the scripts read from an HTML element.  Code that may
    raise returns an [Outcome]. *)

From Stdlib Require Import String Ascii List ZArith Lia Bool Arith Sorted.
From Stdlib Require Import DecimalString.
From Equations Require Import Equations.
Import ListNotations.
Open Scope string_scope.

(* ===================================================================== *)
(** ** JavaScript values and control                                      *)
(* ===================================================================== *)

Module JS.

(** A computation that either completes with a value or raises. *)
Inductive Outcome (A : Type) : Type :=
| Ok (a : A)
| Throw.
Arguments Ok {A} a.
Arguments Throw {A}.

Definition ret {A} (a : A) : Outcome A := Ok a.

Definition bind {A B} (m : Outcome A) (k : A -> Outcome B) : Outcome B :=
  match m with
  | Ok a => k a
  | Throw => Throw
  end.

(** [try { body } catch (e) { handler }] *)
Definition try_catch {A} (body : Outcome A) (handler : Outcome A) : Outcome A :=
  match body with
  | Ok a => Ok a
  | Throw => handler
  end.

(** Truthiness of a string: the empty string is falsy. *)
Definition truthy (s : string) : bool :=
  match s with
  | EmptyString => false
  | String _ _ => true
  end.

(** Truthiness of a value that is a string or [null]/[undefined]. *)
Definition truthy_opt (o : option string) : bool :=
  match o with
  | Some s => truthy s
  | None => false
  end.

(** [a || b] where [a] is a string or null and [b] a string. *)
Definition or_else (a : option string) (b : string) : string :=
  match a with
  | Some s => if truthy s then s else b
  | None => b
  end.

(** [o || ''] *)
Definition or_empty (o : option string) : string := or_else o "".

(** The one-character string holding the double quote (code unit 34). *)
Definition dq : string := String (ascii_of_nat 34) EmptyString.

(** Code units 171 and 187: the guillemets of the radix id pattern. *)
Definition laquo : ascii := ascii_of_nat 171.
Definition raquo : ascii := ascii_of_nat 187.

Definition startsWith (s p : string) : bool := String.prefix p s.

(** [s.includes(sub)] *)
Fixpoint includes (s sub : string) : bool :=
  String.prefix sub s ||
  match s with
  | EmptyString => false
  | String _ s' => includes s' sub
  end.

Definition code (c : ascii) : nat := nat_of_ascii c.

Definition in_range (lo hi : nat) (c : ascii) : bool :=
  Nat.leb lo (code c) && Nat.leb (code c) hi.

Definition is_digit (c : ascii) : bool := in_range 48 57 c.
Definition is_lower (c : ascii) : bool := in_range 97 122 c.
Definition is_upper (c : ascii) : bool := in_range 65 90 c.
Definition is_hex_lower (c : ascii) : bool := in_range 97 102 c || is_digit c.
Definition is_alnum (c : ascii) : bool := is_lower c || is_upper c || is_digit c.
Definition is_hex_dash (c : ascii) : bool := is_hex_lower c || Ascii.eqb c "-"%char.

(** Lower-casing of one code unit below 256: A-Z and the Latin-1 capitals
    192..222 (but not the multiplication sign 215) move up by 32. *)
Definition lower_char (c : ascii) : ascii :=
  if is_upper c || (in_range 192 222 c && negb (Nat.eqb (code c) 215))
  then ascii_of_nat (code c + 32)
  else c.

Fixpoint map_string (f : ascii -> ascii) (s : string) : string :=
  match s with
  | EmptyString => EmptyString
  | String c s' => String (f c) (map_string f s')
  end.

Definition toLowerCase (s : string) : string := map_string lower_char s.

Fixpoint all_chars (p : ascii -> bool) (s : string) : bool :=
  match s with
  | EmptyString => true
  | String c s' => p c && all_chars p s'
  end.

Fixpoint any_char (p : ascii -> bool) (s : string) : bool :=
  match s with
  | EmptyString => false
  | String c s' => p c || any_char p s'
  end.

(** White space among the code units below 256: tab, line feed, vertical
    tab, form feed, carriage return, space, no-break space. *)
Definition is_space (c : ascii) : bool :=
  in_range 9 13 c || Nat.eqb (code c) 32 || Nat.eqb (code c) 160.

Fixpoint trimStart (s : string) : string :=
  match s with
  | EmptyString => EmptyString
  | String c s' => if is_space c then trimStart s' else s
  end.

Fixpoint rev_string (acc s : string) : string :=
  match s with
  | EmptyString => acc
  | String c s' => rev_string (String c acc) s'
  end.

Definition trimEnd (s : string) : string :=
  rev_string "" (trimStart (rev_string "" s)).

Definition trim (s : string) : string := trimEnd (trimStart s).

(** [s.split(sep)] for a non-empty separator.  [skip] counts the code
    units of a separator occurrence still to be passed over and [cur] is
    the current piece, reversed. *)
Fixpoint split_loop (sep : string) (skip : nat) (cur : string) (s : string)
  : list string :=
  match s with
  | EmptyString => [rev_string "" cur]
  | String c s' =>
      match skip with
      | S k => split_loop sep k cur s'
      | O =>
          if String.prefix sep s
          then rev_string "" cur :: split_loop sep (String.length sep - 1) "" s'
          else split_loop sep 0 (String c cur) s'
      end
  end.

Definition split (s sep : string) : list string := split_loop sep 0 "" s.

(** [pieces.join(sep)] *)
Fixpoint join (sep : string) (pieces : list string) : string :=
  match pieces with
  | [] => ""
  | [p] => p
  | p :: rest => p ++ sep ++ join sep rest
  end.

(** [pieces.pop()] read as a value: the last piece. *)
Definition pop (pieces : list string) : string := last pieces "".

(** [pieces.slice(0, n)] *)
Definition slice0 {A} (n : nat) (pieces : list A) : list A := firstn n pieces.

(** Decimal rendering of a number inside a template literal. *)
Definition of_nat (n : nat) : string :=
  match n with
  | O => "0"
  | _ => NilEmpty.string_of_uint (Nat.to_uint n)
  end.

End JS.

Import JS.

Declare Scope js_scope.
Delimit Scope js_scope with js.
Notation "x <- m ;; k" := (bind m (fun x => k))
  (at level 61, m at next level, right associativity) : js_scope.
Open Scope js_scope.

(* ===================================================================== *)
(** ** The page: elements and the document                                *)
(* ===================================================================== *)

Module Dom.

(** An HTML element as the scripts see it.  [attributes] holds the content
    attributes; [id], [className] and [title] reflect them.  [href] is the
    resolved URL of a link and the empty string elsewhere (where the
    property is undefined: falsy either way).  [value] and [innerText] are
    empty where undefined.  [previousElementSiblings] lists the tag names
    of the element siblings before this one, nearest first.  [parentNode]
    is [None] when the parent is not an element (the document, or no parent
    at all). *)
#[warnings="-register-all"]
Inductive Element : Type := mkElement {
  tagName : string;
  attributes : list (string * string);
  textContent : string;
  href : string;
  value : string;
  innerText : string;
  contentEditable : string;
  previousElementSiblings : list string;
  hasNextElementSibling : bool;
  parentNode : option Element
}.

Fixpoint lookup (name : string) (attrs : list (string * string)) : option string :=
  match attrs with
  | [] => None
  | (k, v) :: rest => if String.eqb k name then Some v else lookup name rest
  end.

(** [element.getAttribute(name)]: the value, or null. *)
Definition getAttribute (element : Element) (name : string) : option string :=
  lookup name (attributes element).

(** Reflected properties: the attribute's value, or the empty string. *)
Definition id (element : Element) : string := or_empty (getAttribute element "id").
Definition className (element : Element) : string := or_empty (getAttribute element "class").
Definition title (element : Element) : string := or_empty (getAttribute element "title").

(** The element with one content attribute removed. *)
Definition removeAttribute (element : Element) (name : string) : Element :=
  mkElement (tagName element)
            (filter (fun kv => negb (String.eqb (fst kv) name)) (attributes element))
            (textContent element) (href element) (value element)
            (innerText element) (contentEditable element)
            (previousElementSiblings element) (hasNextElementSibling element)
            (parentNode element).

(** The live document, through the queries the scripts make.  A selector
    the engine cannot parse makes the query raise.  [querySelectorAll]
    lists the matches in document order; [evaluate] is
    [document.evaluate(path, document, null, FIRST_ORDERED_NODE_TYPE, null)
    .singleNodeValue]; [closest] is [element.closest(selectors)];
    [hasBox] tells whether [getBoundingClientRect()] has a positive width
    and height; [hasOffsetParent] whether [offsetParent] is not null. *)
Record Document : Type := mkDocument {
  querySelectorAll : string -> Outcome (list Element);
  evaluate : string -> Outcome (option Element);
  activeElement : option Element;
  closest : Element -> string -> Outcome (option Element);
  hasBox : Element -> bool;
  hasOffsetParent : Element -> bool
}.

(** [document.querySelector(selector)]: the first match, or null. *)
Definition querySelector (document : Document) (selector : string)
  : Outcome (option Element) :=
  matches <- querySelectorAll document selector ;;
  ret (hd_error matches).

End Dom.

Import Dom.

(* ===================================================================== *)
(** ** content.js: locators                                               *)
(* ===================================================================== *)

Module Locators.

(** A locator: one way to find an element again, tagged by its [type].  A
    field that is missing from the object is the empty string (falsy, like
    undefined).  [LOther] is an object with any other [type]. *)
Inductive Locator : Type :=
| LRole (role name : string)
| LDataTestid (value : string)
| LId (value : string)
| LHref (path : string)
| LTitle (value : string)
| LText (content : string)
| LWebSearch (description : string)
| LComposerPlus (description : string)
| LCss (selector : string)
| LXPath (path : string)
| LOther (type : string).

Definition locatorType (locator : Locator) : string :=
  match locator with
  | LRole _ _ => "role"
  | LDataTestid _ => "data-testid"
  | LId _ => "id"
  | LHref _ => "href"
  | LTitle _ => "title"
  | LText _ => "text"
  | LWebSearch _ => "web-search"
  | LComposerPlus _ => "composer-plus"
  | LCss _ => "css"
  | LXPath _ => "xpath"
  | LOther type => type
  end.

(** *** isDynamicId: the eight patterns, in the order of the array *)

(** [/radix-«[^»]+»/], anywhere in the id: after the opening guillemet at
    least one code unit that is not the closing one, then the closing one. *)
Definition radix_tail (rest : string) : bool :=
  match rest with
  | EmptyString => false
  | String c rest' =>
      negb (Ascii.eqb c raquo) && any_char (fun d => Ascii.eqb d raquo) rest'
  end.

Fixpoint re_radix (id : string) : bool :=
  (if String.prefix ("radix-" ++ String laquo "") id
   then radix_tail (substring 7 (String.length id - 7) id)
   else false) ||
  match id with
  | EmptyString => false
  | String _ id' => re_radix id'
  end.

(** [/^[a-f0-9]{8,}$/] *)
Definition re_long_hex (id : string) : bool :=
  Nat.leb 8 (String.length id) && all_chars is_hex_lower id.

(** [/^[a-zA-Z0-9]{20,}$/] *)
Definition re_long_alnum (id : string) : bool :=
  Nat.leb 20 (String.length id) && all_chars is_alnum id.

(** [/^[a-f0-9-]{20,}$/] *)
Definition re_uuid_like (id : string) : bool :=
  Nat.leb 20 (String.length id) && all_chars is_hex_dash id.

(** [/^react-select/], [/^mui-/], [/^chakra-/], [/^rc-/] *)
Definition re_react_select (id : string) : bool := startsWith id "react-select".
Definition re_mui (id : string) : bool := startsWith id "mui-".
Definition re_chakra (id : string) : bool := startsWith id "chakra-".
Definition re_rc (id : string) : bool := startsWith id "rc-".

Definition dynamicPatterns : list (string -> bool) :=
  [ re_radix; re_long_hex; re_long_alnum; re_uuid_like;
    re_react_select; re_mui; re_chakra; re_rc ].

Definition isDynamicId (id : string) : bool :=
  existsb (fun pattern => pattern id) dynamicPatterns.

(** *** The two page-specific predicates *)

Definition isComposerPlusButton (element : Element) : bool :=
  let dataTestId := getAttribute element "data-testid" in
  let className := className element in
  let ariaLabel := getAttribute element "aria-label" in
  match dataTestId with Some v => String.eqb v "composer-plus-btn" | None => false end ||
  includes className "composer-btn" ||
  match ariaLabel with Some l => includes (toLowerCase l) "plus" | None => false end ||
  match ariaLabel with Some l => includes (toLowerCase l) "add" | None => false end.

Definition lower_attr (element : Element) (name : string) : string :=
  or_empty (option_map toLowerCase (getAttribute element name)).

Definition isWebSearchButton (element : Element) : bool :=
  let text := toLowerCase (textContent element) in
  let ariaLabel := lower_attr element "aria-label" in
  let title := lower_attr element "title" in
  let dataTestId := lower_attr element "data-testid" in
  let role := getAttribute element "role" in
  let isWebSearch :=
    includes text "web search" ||
    includes text "search the web" ||
    includes ariaLabel "web search" ||
    includes ariaLabel "search the web" ||
    includes title "web search" ||
    includes title "search the web" ||
    includes dataTestId "web-search" ||
    includes dataTestId "search-web" ||
    (match role with Some r => String.eqb r "menuitemradio" | None => false end
     && includes text "web search") in
  if isWebSearch then true else false.

(** *** Generated selectors *)

Definition generateCSSSelector (element : Element) : string :=
  if truthy_opt (getAttribute element "data-testid") then
    "[data-testid=" ++ dq ++ or_empty (getAttribute element "data-testid") ++ dq ++ "]"
  else if truthy (id element) && negb (isDynamicId (id element)) then
    "#" ++ id element
  else
    let selector := toLowerCase (tagName element) in
    let selector :=
      if truthy (className element) then
        let classes :=
          filter (fun c => truthy (trim c) && Nat.ltb 2 (String.length c))
                 (split (className element) " ") in
        if Nat.ltb 0 (List.length classes) then
          let meaningfulClasses := slice0 3 classes in
          selector ++ "." ++ join "." meaningfulClasses
        else selector
      else selector in
    let selector :=
      if truthy (href element) then
        selector ++ "[href*=" ++ dq ++ pop (split (href element) "/") ++ dq ++ "]"
      else selector in
    let selector :=
      if truthy (title element) then
        selector ++ "[title=" ++ dq ++ title element ++ dq ++ "]"
      else selector in
    selector.

(** The loop of generateSimpleXPath; [remaining] is [maxDepth - depth]. *)
Fixpoint xpath_loop (remaining : nat) (current : option Element) (path : string)
  : string :=
  match remaining, current with
  | S remaining', Some current =>
      let selector := toLowerCase (tagName current) in
      let selector :=
        if Nat.ltb 0 (List.length (previousElementSiblings current))
           || hasNextElementSibling current then
          let position :=
            1 + List.length (filter (fun sibling => String.eqb sibling (tagName current))
                                    (previousElementSiblings current)) in
          selector ++ "[" ++ of_nat position ++ "]"
        else selector in
      xpath_loop remaining' (parentNode current) ("/" ++ selector ++ path)
  | _, _ => path
  end.

Definition maxDepth : nat := 5.

Definition generateSimpleXPath (element : Element) : string :=
  if truthy_opt (getAttribute element "data-testid") then
    "//*[@data-testid=" ++ dq ++ or_empty (getAttribute element "data-testid") ++ dq ++ "]"
  else if truthy (id element) && negb (isDynamicId (id element)) then
    "//*[@id=" ++ dq ++ id element ++ dq ++ "]"
  else
    xpath_loop maxDepth (Some element) "".

(** *** generateLocators *)

Section Generate.

(** [new URL(href).pathname]; the constructor raises on a string that is
    not a URL. *)
Variable URL_pathname : string -> Outcome string.

Definition push (locators : list Locator) (locator : Locator) : list Locator :=
  locators ++ [locator].

Definition generateLocators (element : Element) : Outcome (list Locator) :=
  let locators := [] in
  let locators :=
    if truthy_opt (getAttribute element "role") then
      let role := or_empty (getAttribute element "role") in
      let name :=
        or_else (getAttribute element "name")
          (or_else (getAttribute element "aria-label")
             (trim (textContent element))) in
      if truthy name then push locators (LRole role name) else locators
    else locators in
  let locators :=
    if truthy_opt (getAttribute element "data-testid") then
      push locators (LDataTestid (or_empty (getAttribute element "data-testid")))
    else locators in
  let locators :=
    if truthy (id element) && negb (isDynamicId (id element)) then
      push locators (LId (id element))
    else locators in
  locators <-
    (if String.eqb (tagName element) "A" && truthy (href element) then
       let href := href element in
       path <- URL_pathname href ;;
       if truthy path && negb (String.eqb path "/") then
         ret (push locators (LHref path))
       else ret locators
     else ret locators) ;;
  let locators :=
    if truthy (title element) then push locators (LTitle (title element))
    else locators in
  let locators :=
    if truthy (textContent element) && truthy (trim (textContent element)) then
      let text := trim (textContent element) in
      if Nat.ltb 0 (String.length text) && Nat.ltb (String.length text) 100 then
        push locators (LText text)
      else locators
    else locators in
  let locators :=
    if isWebSearchButton element then
      push locators (LWebSearch "Web search button")
    else locators in
  let locators :=
    if isComposerPlusButton element then
      push locators (LComposerPlus "Composer plus button")
    else locators in
  locators <-
    try_catch
      (let cssSelector := generateCSSSelector element in
       if truthy cssSelector then ret (push locators (LCss cssSelector))
       else ret locators)
      (ret locators) ;;
  locators <-
    try_catch
      (let xpath := generateSimpleXPath element in
       if truthy xpath then ret (push locators (LXPath xpath))
       else ret locators)
      (ret locators) ;;
  ret locators.

End Generate.

End Locators.

Import Locators.

(* ===================================================================== *)
(** ** content.js: resolving locators against the live document           *)
(* ===================================================================== *)

Module Resolver.

(** What resolveLocator hands back: a selector string or a live element. *)
Inductive Resolved : Type :=
| RSelector (selector : string)
| RElement (element : Element).

(** [for (const x of items) { ... }] whose body may [return] a value:
    [Some b] leaves the loop with [b], [None] goes on to the next item. *)
Fixpoint for_of {A B} (items : list A) (body : A -> Outcome (option B))
  : Outcome (option B) :=
  match items with
  | [] => ret None
  | x :: rest =>
      r <- body x ;;
      match r with
      | Some b => ret (Some b)
      | None => for_of rest body
      end
  end.

(** A statement that may [return], followed by the rest of the function. *)
Definition or_then {B} (stmt rest : Outcome (option B)) : Outcome (option B) :=
  r <- stmt ;;
  match r with
  | Some b => ret (Some b)
  | None => rest
  end.

Definition quoted (s : string) : string := dq ++ s ++ dq.

(** Field reads; a field the object does not have is undefined (falsy). *)
Definition role (locator : Locator) : string :=
  match locator with LRole r _ => r | _ => "" end.
Definition name (locator : Locator) : string :=
  match locator with LRole _ n => n | _ => "" end.
Definition value (locator : Locator) : string :=
  match locator with LDataTestid v | LId v | LTitle v => v | _ => "" end.
Definition path (locator : Locator) : string :=
  match locator with LHref p | LXPath p => p | _ => "" end.
Definition content (locator : Locator) : string :=
  match locator with LText c => c | _ => "" end.
Definition selector (locator : Locator) : string :=
  match locator with LCss s => s | _ => "" end.

(** The test both finders apply to a button: web-search wording in its
    text, aria-label, title or test id, all lower-cased. *)
Definition mentionsWebSearch (button : Element) : bool :=
  let text := toLowerCase (textContent button) in
  let ariaLabel := lower_attr button "aria-label" in
  let title := lower_attr button "title" in
  let dataTestId := lower_attr button "data-testid" in
  includes text "web search" || includes text "search the web" ||
  includes ariaLabel "web search" || includes ariaLabel "search the web" ||
  includes title "web search" || includes title "search the web" ||
  includes dataTestId "web-search" || includes dataTestId "search-web".

Section Resolve.

Variable document : Document.

Definition findComposerPlusButton : Outcome (option Element) :=
  let testIdSelector := "[data-testid=" ++ quoted "composer-plus-btn" ++ "]" in
  element <- querySelector document testIdSelector ;;
  match element with
  | Some element => ret (Some element)
  | None =>
      let classSelector := "button.composer-btn" in
      classElement <- querySelector document classSelector ;;
      match classElement with
      | Some classElement => ret (Some classElement)
      | None =>
          let ariaSelector := "button[aria-haspopup=" ++ quoted "menu" ++ "]" in
          ariaElement <- querySelector document ariaSelector ;;
          match ariaElement with
          | Some ariaElement => ret (Some ariaElement)
          | None => ret None
          end
      end
  end.

Definition toggleSelectors : list string :=
  [ "button[data-testid*=" ++ quoted "web-search-toggle" ++ "]";
    "button[data-testid*=" ++ quoted "search-toggle" ++ "]";
    "button[aria-label*=" ++ quoted "Web search" ++ "]";
    "button[title*=" ++ quoted "Web search" ++ "]";
    "button[aria-label*=" ++ quoted "Search the web" ++ "]";
    "button[title*=" ++ quoted "Search the web" ++ "]" ].

Definition findCurrentChatWebSearchToggle : Outcome (option Element) :=
  or_then
    (for_of toggleSelectors (fun selector =>
       element <- querySelector document selector ;;
       match element with
       | Some element =>
           if hasBox document element then ret (Some element) else ret None
       | None => ret None
       end))
    (allButtons <- querySelectorAll document "button" ;;
     or_then
       (for_of allButtons (fun button =>
          if mentionsWebSearch button && hasOffsetParent document button
          then ret (Some button) else ret None))
       (ret None)).

Definition specificSelectors : list string :=
  [ "button[data-testid*=" ++ quoted "web-search" ++ "]";
    "button[data-testid*=" ++ quoted "search-web" ++ "]";
    "button[aria-label*=" ++ quoted "Web search" ++ "]";
    "button[title*=" ++ quoted "Web search" ++ "]";
    "button[aria-label*=" ++ quoted "Search the web" ++ "]";
    "button[title*=" ++ quoted "Search the web" ++ "]";
    "button[aria-label*=" ++ quoted "web search" ++ "]";
    "button[title*=" ++ quoted "web search" ++ "]";
    "button[aria-label*=" ++ quoted "search the web" ++ "]";
    "button[title*=" ++ quoted "search the web" ++ "]";
    "button[data-testid=" ++ quoted "web-search-toggle" ++ "]";
    "button[data-testid=" ++ quoted "search-toggle" ++ "]" ].

Definition findWebSearchButton : Outcome (option Element) :=
  or_then findCurrentChatWebSearchToggle
 (or_then
    (for_of specificSelectors (fun selector =>
       element <- querySelector document selector ;;
       ret element))
 (menuItems <- querySelectorAll document ("[role=" ++ quoted "menuitemradio" ++ "]") ;;
  or_then
    (for_of menuItems (fun item =>
       let text := toLowerCase (textContent item) in
       if includes text "web search" then ret (Some item) else ret None))
 (buttons <- querySelectorAll document "button" ;;
  or_then
    (for_of buttons (fun button =>
       if mentionsWebSearch button then ret (Some button) else ret None))
 (toggleButtons <-
    querySelectorAll document
      ("button[data-testid*=" ++ quoted "toggle" ++ "], button[aria-label*="
         ++ quoted "toggle" ++ "]") ;;
  or_then
    (for_of toggleButtons (fun button =>
       parent <-
         closest document button
           ("[class*=" ++ quoted "search" ++ "], [class*=" ++ quoted "web"
              ++ "], [class*=" ++ quoted "toggle" ++ "]") ;;
       match parent with
       | Some _ => ret (Some button)
       | None => ret None
       end))
    (ret None))))).

Definition as_element (found : Outcome (option Element)) : Outcome (option Resolved) :=
  r <- found ;; ret (option_map RElement r).

(** [if (document.querySelector(selector)) return selector;] *)
Definition return_if_present (selector : string) : Outcome (option Resolved) :=
  element <- querySelector document selector ;;
  match element with
  | Some _ => ret (Some (RSelector selector))
  | None => ret None
  end.

(** The body of the [try] block for one locator: [Ok (Some r)] is
    [return r], [Ok None] is falling off the end of the block, [Throw] is
    an exception leaving the block. *)
Definition tryLocator (locator : Locator) : Outcome (option Resolved) :=
  let locatorType := locatorType locator in
  or_then
    (if String.eqb locatorType "web-search" then as_element findWebSearchButton
     else ret None)
 (or_then
    (if String.eqb locatorType "composer-plus" then as_element findComposerPlusButton
     else ret None)
 (or_then
    (if String.eqb locatorType "data-testid" then
       let testId := value locator in
       if truthy testId then
         let selector := "[data-testid=" ++ quoted testId ++ "]" in
         return_if_present selector
       else ret None
     else ret None)
 (if String.eqb locatorType "role" then
    let role := role locator in
    let name := name locator in
    if truthy role && truthy name then
      or_then
        (return_if_present ("[role=" ++ quoted role ++ "][name=" ++ quoted name ++ "]"))
     (or_then
        (return_if_present ("[role=" ++ quoted role ++ "][aria-label=" ++ quoted name ++ "]"))
     (let selector := "[role=" ++ quoted role ++ "]" in
      roleElements <- querySelectorAll document selector ;;
      for_of roleElements (fun element =>
        if String.eqb (trim (textContent element)) name
           || match getAttribute element "aria-label" with
              | Some l => String.eqb l name
              | None => false
              end
        then ret (Some (RElement element)) else ret None)))
    else ret None
  else if String.eqb locatorType "id" then
    let elementId := value locator in
    if truthy elementId then return_if_present ("#" ++ elementId)
    else ret None
  else if String.eqb locatorType "href" then
    let hrefPath := path locator in
    if truthy hrefPath then return_if_present ("a[href*=" ++ quoted hrefPath ++ "]")
    else ret None
  else if String.eqb locatorType "title" then
    let title := value locator in
    if truthy title then return_if_present ("[title=" ++ quoted title ++ "]")
    else ret None
  else if String.eqb locatorType "text" then
    let text := content locator in
    if truthy text then
      elements <- querySelectorAll document "*" ;;
      for_of elements (fun element =>
        if truthy (textContent element)
           && String.eqb (trim (textContent element)) text
        then ret (Some (RElement element)) else ret None)
    else ret None
  else if String.eqb locatorType "css" then
    let cssSelector := selector locator in
    if truthy cssSelector then return_if_present cssSelector
    else ret None
  else if String.eqb locatorType "xpath" then
    let xpath := path locator in
    if truthy xpath then
      try_catch
        (result <- evaluate document xpath ;;
         match result with
         | Some node => ret (Some (RElement node))
         | None => ret None
         end)
        (ret None)
    else ret None
  else ret None))).

(** resolveLocator: the loop over the list, each turn inside try/catch
    whose handler warns and goes on to the next locator. *)
Fixpoint resolveLocator (locators : list Locator) : Outcome (option Resolved) :=
  match locators with
  | [] => ret None
  | locator :: rest =>
      r <- try_catch (tryLocator locator) (ret None) ;;
      match r with
      | Some found => ret (Some found)
      | None => resolveLocator rest
      end
  end.

End Resolve.

End Resolver.

Import Resolver.

(* ===================================================================== *)
(** ** A small document implementation                                    *)
(* ===================================================================== *)

(** A page given as the list of its elements in document order, with a
    selector engine for the selector shapes the scripts build: an optional
    tag name or [*], followed by [.class], [#id], [[attr="v"]] and
    [[attr*="v"]] tests, several such compounds separated by commas.  Any
    other text is a syntax error and makes the query raise, as an engine
    does on a selector it cannot parse.  It serves to run the model on
    concrete pages. *)
Module MiniDom.

Inductive Simple : Type :=
| STag (tag : string)
| SAny
| SClass (c : string)
| SId (i : string)
| SAttrEq (attr v : string)
| SAttrHas (attr v : string).

Definition is_ident_char (c : ascii) : bool :=
  is_alnum c || Ascii.eqb c "-"%char || Ascii.eqb c "_"%char.

Fixpoint take_ident (s : string) : string * string :=
  match s with
  | EmptyString => ("", "")
  | String c s' =>
      if is_ident_char c
      then let (i, rest) := take_ident s' in (String c i, rest)
      else ("", s)
  end.

(** The text up to the next double quote, and what follows that quote. *)
Fixpoint take_quoted (s : string) : option (string * string) :=
  match s with
  | EmptyString => None
  | String c s' =>
      if Ascii.eqb c (ascii_of_nat 34) then Some ("", s')
      else match take_quoted s' with
           | Some (v, rest) => Some (String c v, rest)
           | None => None
           end
  end.

Definition after_prefix (p s : string) : option string :=
  if String.prefix p s
  then Some (substring (String.length p) (String.length s - String.length p) s)
  else None.

(** One bracketed attribute test, the opening bracket already read. *)
Definition parse_attr (s : string) : option (Simple * string) :=
  let (attr, rest) := take_ident s in
  if truthy attr then
    match after_prefix ("=" ++ dq) rest, after_prefix ("*=" ++ dq) rest with
    | Some body, _ =>
        match take_quoted body with
        | Some (v, rest') =>
            option_map (fun r => (SAttrEq attr v, r)) (after_prefix "]" rest')
        | None => None
        end
    | None, Some body =>
        match take_quoted body with
        | Some (v, rest') =>
            option_map (fun r => (SAttrHas attr v, r)) (after_prefix "]" rest')
        | None => None
        end
    | None, None => None
    end
  else None.

(** The tests of one compound, up to a comma or the end of the text. *)
Fixpoint parse_simples (fuel : nat) (s : string) : option (list Simple * string) :=
  match fuel with
  | O => None
  | S fuel' =>
      match s with
      | EmptyString => Some ([], "")
      | String c s' =>
          if Ascii.eqb c ","%char then Some ([], s)
          else if Ascii.eqb c "."%char then
            let (i, rest) := take_ident s' in
            if truthy i then
              option_map (fun r => (SClass i :: fst r, snd r)) (parse_simples fuel' rest)
            else None
          else if Ascii.eqb c "#"%char then
            let (i, rest) := take_ident s' in
            if truthy i then
              option_map (fun r => (SId i :: fst r, snd r)) (parse_simples fuel' rest)
            else None
          else if Ascii.eqb c "["%char then
            match parse_attr s' with
            | Some (t, rest) =>
                option_map (fun r => (t :: fst r, snd r)) (parse_simples fuel' rest)
            | None => None
            end
          else None
      end
  end.

Definition parse_compound (fuel : nat) (s : string) : option (list Simple * string) :=
  let head :=
    match s with
    | String "*"%char s' => ([SAny], s')
    | _ => let (tag, rest) := take_ident s in
           if truthy tag then ([STag tag], rest) else ([], s)
    end in
  match parse_simples fuel (snd head) with
  | Some (tests, rest) =>
      match (fst head ++ tests)%list with
      | [] => None
      | compound => Some (compound, rest)
      end
  | None => None
  end.

Fixpoint parse_list (fuel : nat) (s : string) : option (list (list Simple)) :=
  match fuel with
  | O => None
  | S fuel' =>
      match parse_compound (S (String.length s)) s with
      | Some (compound, EmptyString) => Some [compound]
      | Some (compound, String _ rest) =>
          option_map (cons compound) (parse_list fuel' (trimStart rest))
      | None => None
      end
  end.

Definition parse (s : string) : option (list (list Simple)) :=
  parse_list (S (String.length s)) s.

Definition matches_simple (element : Element) (t : Simple) : bool :=
  match t with
  | STag tag => String.eqb (toLowerCase (tagName element)) (toLowerCase tag)
  | SAny => true
  | SClass c => existsb (String.eqb c) (split (className element) " ")
  | SId i => String.eqb (id element) i
  | SAttrEq attr v =>
      match getAttribute element attr with
      | Some w => String.eqb w v
      | None => false
      end
  | SAttrHas attr v =>
      match getAttribute element attr with
      | Some w => truthy v && includes w v
      | None => false
      end
  end.

Definition matches (selectors : list (list Simple)) (element : Element) : bool :=
  existsb (fun compound => forallb (matches_simple element) compound) selectors.

Record Page : Type := mkPage {
  elements : list Element;
  focused : option Element
}.

Definition page_querySelectorAll (page : Page) (selector : string)
  : Outcome (list Element) :=
  match parse selector with
  | Some selectors => Ok (filter (matches selectors) (elements page))
  | None => Throw
  end.

(** The element itself or its nearest ancestor matching the selectors;
    [depth] bounds the climb. *)
Fixpoint climb (depth : nat) (selectors : list (list Simple)) (element : Element)
  : option Element :=
  if matches selectors element then Some element
  else match depth, parentNode element with
       | S depth', Some parent => climb depth' selectors parent
       | _, _ => None
       end.

Definition page_closest (element : Element) (selector : string)
  : Outcome (option Element) :=
  match parse selector with
  | Some selectors => Ok (climb 64 selectors element)
  | None => Throw
  end.

(** XPath: only the form [//*[@attr="v"]] is understood; any other path
    finds no node. *)
Definition page_evaluate (page : Page) (xpath : string) : Outcome (option Element) :=
  match after_prefix "//*[@" xpath with
  | Some rest =>
      match parse_attr rest with
      | Some (t, EmptyString) => Ok (hd_error (filter (fun e => matches_simple e t) (elements page)))
      | _ => Ok None
      end
  | None => Ok None
  end.

(** Every element of a page is rendered. *)
Definition document_of (page : Page) : Document :=
  mkDocument (page_querySelectorAll page) (page_evaluate page) (focused page)
             page_closest (fun _ => true) (fun _ => true).

(** An element with a tag, attributes and text, outside any tree. *)
Definition element (tag : string) (attrs : list (string * string)) (text : string)
  : Element :=
  mkElement tag attrs text "" "" text "inherit" [] false None.

(** A text field: an element with a [value]. *)
Definition field (tag : string) (attrs : list (string * string)) (v : string)
  : Element :=
  mkElement tag attrs "" "" v "" "inherit" [] false None.

End MiniDom.

(* ===================================================================== *)
(** ** content.js: the step capture engine                                *)
(* ===================================================================== *)

Module Capture.

Inductive Action : Type :=
| Navigate (url : string)
| Click (locators : list Locator)
| TypeText (text : string)
| Press (key : string).


(** A recorded step: the payload and [t], milliseconds since the start. *)
Record Step : Type := mkStep {
  t : Z;
  action : Action
}.


(** The [recorder] object.  [typingTimeout] is a timer handle or null;
    handles are positive integers, hence truthy. *)
Record Recorder : Type := mkRecorder {
  steps : list Step;
  startTime : Z;
  isRecording : bool;
  typingTimeout : option positive;
  lastTypedText : string;
  lastUrl : option string;
  lastRecordedEvent : option string
}.












Section Engine.

(** [Date.now()]: the value of the n-th reading of the clock. *)
Variable Date_now : nat -> Z.

(** [new URL(href).pathname], used by generateLocators. *)
Variable URL_pathname : string -> Outcome string.


















End Engine.

End Capture.

Import Capture.

(* ===================================================================== *)
(** ** content.js: the replay-type executor                               *)
(* ===================================================================== *)

Module Typing.

(** The state of the promise executeReplayType returns. *)
Inductive Settled : Type :=
| Pending
| Fulfilled (success : bool)
| Rejected.

(** What the executor does to the page, in order.  [SetTimeout base k] is
    a timeout of [base + r * 30] milliseconds where [r] is the k-th value
    drawn from [Math.random()]; [Resolve b] is the call [resolve(b)]. *)
Inductive Effect : Type :=
| ClearValue
| ClearTextContent
| Focus
| AppendValue (char : ascii)
| AppendTextContent (char : ascii)
| DispatchInput
| SetTimeout (base : Z) (k : nat)
| Resolve (b : bool).

Definition setValue (e : Element) (v : string) : Element :=
  mkElement (tagName e) (attributes e) (textContent e) (href e) v (innerText e)
            (contentEditable e) (previousElementSiblings e)
            (hasNextElementSibling e) (parentNode e).

Definition setTextContent (e : Element) (v : string) : Element :=
  mkElement (tagName e) (attributes e) v (href e) (Dom.value e) (innerText e)
            (contentEditable e) (previousElementSiblings e)
            (hasNextElementSibling e) (parentNode e).

Definition isField (e : Element) : bool :=
  String.eqb (tagName e) "INPUT" || String.eqb (tagName e) "TEXTAREA".

(** The base delay after a character. *)
Definition delayAfter (char : ascii) : Z :=
  if Ascii.eqb char " "%char then 100%Z
  else if Ascii.eqb char "."%char || Ascii.eqb char ","%char
          || Ascii.eqb char "!"%char || Ascii.eqb char "?"%char then 200%Z
  else if Ascii.eqb char (ascii_of_nat 10) then 150%Z
  else 50%Z.

(** typeCharacterByCharacter.  The continuation a timeout holds is run
    when the browser runs that timeout; no code cancels these timeouts.
    The result is the element as typing leaves it and the effects, oldest
    first; the callback is [resolve]. *)
Equations typeCharacterByCharacter (element : Element) (text : string)
  (index : nat) (log : list Effect) : Element * list Effect
  by wf (String.length text - index) lt :=
typeCharacterByCharacter element text index log
  with le_lt_dec (String.length text) index := {
  | left _ => (element, (log ++ [Resolve true])%list)
  | right _ =>
      let char := match String.get index text with
                  | Some c => c
                  | None => zero
                  end in
      let (element, log) :=
        if isField element then
          (setValue element (Dom.value element ++ String char ""),
           (log ++ [AppendValue char; DispatchInput])%list)
        else
          (setTextContent element (textContent element ++ String char ""),
           (log ++ [AppendTextContent char; DispatchInput])%list) in
      let delay := delayAfter char in
      typeCharacterByCharacter element text (S index)
        (log ++ [SetTimeout delay index])%list
  }.
Next Obligation. lia. Qed.

Definition inputSelectors : list string :=
  [ "textarea[placeholder*=" ++ quoted "Message" ++ "]";
    "textarea[placeholder*=" ++ quoted "Send" ++ "]";
    "input[type=" ++ quoted "text" ++ "]";
    "textarea";
    "div[contenteditable=" ++ quoted "true" ++ "]" ].

Definition suitable (e : Element) : bool :=
  isField e || String.eqb (contentEditable e) "true".

(** The element typing goes to: the focused element when suitable, else
    the first match of the fallback selectors, else the focused element
    unchanged. *)
Definition chooseInput (document : Document) : Outcome (option Element) :=
  let inputElement := activeElement document in
  if match inputElement with
     | None => true
     | Some e => negb (suitable e)
     end
  then
    found <- for_of inputSelectors (fun selector =>
               element <- querySelector document selector ;;
               ret element) ;;
    match found with
    | Some element => ret (Some element)
    | None => ret inputElement
    end
  else ret inputElement.

(** The body of the [try] block of executeReplayType: the element typed
    into (if any), as typing leaves it, and the effects. *)
Definition executorBody (document : Document) (text : string)
  : Outcome (option Element * list Effect) :=
  inputElement <- chooseInput document ;;
  match inputElement with
  | Some inputElement =>
      if suitable inputElement then
        let (cleared, log) :=
          if isField inputElement
          then (setValue inputElement "", [ClearValue])
          else (setTextContent inputElement "", [ClearTextContent]) in
        let log := (log ++ [Focus])%list in
        let (typed, log) := typeCharacterByCharacter cleared text 0 log in
        ret (Some typed, log)
      else ret (None, [Resolve false])
  | None => ret (None, [Resolve false])
  end.

(** executeReplayType: the [catch] handler calls [resolve(false)]. *)
Definition executeReplayType (document : Document) (text : string)
  : option Element * list Effect :=
  match executorBody document text with
  | Ok r => r
  | Throw => (None, [Resolve false])
  end.

(** The promise settles with the argument of the first [resolve] call;
    the executor never calls [reject]. *)
Fixpoint settled (log : list Effect) : Settled :=
  match log with
  | [] => Pending
  | Resolve b :: _ => Fulfilled b
  | _ :: rest => settled rest
  end.

(** The characters appended to the element, in order. *)
Fixpoint inserted (log : list Effect) : string :=
  match log with
  | [] => ""
  | AppendValue c :: rest => String c (inserted rest)
  | AppendTextContent c :: rest => String c (inserted rest)
  | _ :: rest => inserted rest
  end.

End Typing.

(* ===================================================================== *)
(** ** record.js: the messenger and the replay engine                     *)
(* ===================================================================== *)

Module Panel.

(** The [selector] of a LOCATOR_RESOLVED message as the panel receives
    it: a string, or an object when the page resolved to a live element. *)
Inductive Selector : Type :=
| SelString (s : string)
| SelObject.

Definition truthySelector (s : Selector) : bool :=
  match s with
  | SelString s => truthy s
  | SelObject => true
  end.

(** Requests to the content script.  The message id of RESOLVE_LOCATOR,
    which only pairs the answer with the request, is left out. *)
Inductive Request : Type :=
| START_RECORDING
| STOP_RECORDING
| RESOLVE_LOCATOR (locators : list Locator)
| REPLAY_CLICK (selector : Selector)
| REPLAY_TYPE (text : string)
| REPLAY_KEY_PRESS (key : string).

(** What the content script answers: [{success: b}], or nothing. *)
Inductive Response : Type :=
| Undefined
| Success (b : bool).

(** What the panel does to the outside, in order. *)
Inductive Effect : Type :=
| ExecuteScript
| SendMessage (message : Request)
| Wait (ms : Z)
| TabsUpdate (url : string)
| Alert (text : string)
| HighlightReplayStep (index : nat)
| UpdateReplayProgress (current total : nat)
| UpdateReplayUI
| ClearReplayHighlights
| ClearTimeline
| ConsoleError (text : string).

(** The browser as the panel meets it.  Each answer may depend on how
    many effects came before ([nat]): [executeScript] tells whether
    injecting content.js succeeds, [sendMessage] gives the response or
    raises when no receiver exists, [tabsUpdate] tells whether the
    navigation is accepted, and [locatorResolved] is what the promise of
    resolveLocator settles with: the selector of the LOCATOR_RESOLVED
    message, or null when it carries null or the 5000 ms timeout wins. *)
Record Browser : Type := mkBrowser {
  executeScript : nat -> bool;
  sendMessage : nat -> Request -> Outcome Response;
  tabsUpdate : nat -> string -> bool;
  locatorResolved : nat -> list Locator -> option Selector
}.

(** The fields of the Recorder object that replay uses, and the effects
    so far, oldest first. *)
Record Recorder : Type := mkRecorder {
  isReplaying : bool;
  replaySteps : list Step;
  currentReplayStep : nat;
  isPaused : bool;
  log : list Effect
}.

(** An async method: it runs to its end from a state, leaving a state and
    either a value or an exception. *)
Definition Async (A : Type) : Type := Recorder -> Outcome A * Recorder.

Definition pure {A} (a : A) : Async A := fun s => (Ok a, s).

Definition raise {A} : Async A := fun s => (Throw, s).

Definition await {A B} (m : Async A) (k : A -> Async B) : Async B :=
  fun s =>
    match m s with
    | (Ok a, s') => k a s'
    | (Throw, s') => (Throw, s')
    end.

(** [try { body } catch (error) { handler }] *)
Definition try_ {A} (body handler : Async A) : Async A :=
  fun s =>
    match body s with
    | (Ok a, s') => (Ok a, s')
    | (Throw, s') => handler s'
    end.

Definition emit (e : Effect) : Async unit :=
  fun s => (Ok tt, mkRecorder (isReplaying s) (replaySteps s)
                              (currentReplayStep s) (isPaused s)
                              (log s ++ [e])).

Definition get : Async Recorder := fun s => (Ok s, s).

Definition set_isReplaying (v : bool) : Async unit :=
  fun s => (Ok tt, mkRecorder v (replaySteps s) (currentReplayStep s)
                              (isPaused s) (log s)).
Definition set_currentReplayStep (v : nat) : Async unit :=
  fun s => (Ok tt, mkRecorder (isReplaying s) (replaySteps s) v
                              (isPaused s) (log s)).
Definition set_isPaused (v : bool) : Async unit :=
  fun s => (Ok tt, mkRecorder (isReplaying s) (replaySteps s)
                              (currentReplayStep s) v (log s)).

Declare Scope async_scope.
Delimit Scope async_scope with async.
Notation "x <~ m ;; k" := (await m (fun x => k))
  (at level 61, m at next level, right associativity) : async_scope.
Notation "m ;;; k" := (await m (fun _ => k))
  (at level 61, right associativity) : async_scope.
Open Scope async_scope.

Section Engine.

Variable browser : Browser.

(** A call into the browser: the effect is logged, and the answer is the
    one the browser gives after the effects before it. *)
Definition chrome_scripting_executeScript : Async unit :=
  fun s =>
    let n := List.length (log s) in
    match emit ExecuteScript s with
    | (_, s') => if executeScript browser n then (Ok tt, s') else (Throw, s')
    end.

Definition chrome_tabs_sendMessage (message : Request) : Async Response :=
  fun s =>
    let n := List.length (log s) in
    match emit (SendMessage message) s with
    | (_, s') => (sendMessage browser n message, s')
    end.

Definition chrome_tabs_update (url : string) : Async unit :=
  fun s =>
    let n := List.length (log s) in
    match emit (TabsUpdate url) s with
    | (_, s') => if tabsUpdate browser n url then (Ok tt, s') else (Throw, s')
    end.

(** [await new Promise(resolve => setTimeout(resolve, ms))] *)
Definition sleep (ms : Z) : Async unit := emit (Wait ms).

Definition ensureContentScriptInjected : Async unit :=
  try_ chrome_scripting_executeScript
       (emit (ConsoleError "Failed to inject content script:") ;;; raise).

(** sendMessageToContentScript; the result [None] is null. *)
Definition sendMessageToContentScript (message : Request)
  : Async (option Response) :=
  try_
    (ensureContentScriptInjected ;;;
     response <~ chrome_tabs_sendMessage message ;;
     pure (Some response))
    (emit (ConsoleError "Failed to send message to content script:") ;;;
     try_
       (ensureContentScriptInjected ;;;
        sleep 1000 ;;;
        retryResponse <~ chrome_tabs_sendMessage message ;;
        pure (Some retryResponse))
       (emit (ConsoleError "Retry also failed:") ;;;
        pure None)).

(** resolveLocator of the panel.  The request goes out through the
    messenger; that call is not awaited and its result is not used, and
    here it runs to its end before the answer is looked at.  The promise
    settles with what the browser brings back. *)
Definition resolveLocator (locators : list Locator) : Async (option Selector) :=
  sendMessageToContentScript (RESOLVE_LOCATOR locators) ;;;
  s <~ get ;;
  pure (locatorResolved browser (List.length (log s)) locators).

Definition stopReplay : Async unit :=
  set_isReplaying false ;;;
  set_isPaused false ;;;
  set_currentReplayStep 0 ;;;
  emit UpdateReplayUI ;;;
  emit ClearReplayHighlights ;;;
  emit ClearTimeline.

Definition updateReplayProgress : Async unit :=
  s <~ get ;;
  emit (UpdateReplayProgress (currentReplayStep s) (List.length (replaySteps s))).

Definition highlightReplayStep (stepIndex : nat) : Async unit :=
  emit ClearReplayHighlights ;;;
  emit (HighlightReplayStep stepIndex).

Definition executeNavigation (url : string) : Async unit :=
  if truthy url then
    chrome_tabs_update url ;;;
    sleep 3000
  else pure tt.

Definition executeClick (locators : list Locator) : Async unit :=
  selector <~ resolveLocator locators ;;
  match selector with
  | Some selector =>
      if truthySelector selector then
        sendMessageToContentScript (REPLAY_CLICK selector) ;;;
        pure tt
      else emit (ConsoleError "Could not resolve locators:")
  | None => emit (ConsoleError "Could not resolve locators:")
  end.

Definition executeType (text : string) : Async unit :=
  if truthy text then
    sendMessageToContentScript (REPLAY_TYPE text) ;;;
    pure tt
  else pure tt.

Definition executeKeyPress (key : string) : Async unit :=
  if truthy key then
    sendMessageToContentScript (REPLAY_KEY_PRESS key) ;;;
    pure tt
  else pure tt.

Definition executeAction (step : Step) : Async unit :=
  match action step with
  | Navigate url => executeNavigation url
  | Click locators => executeClick locators
  | TypeText text => executeType text
  | Press key => executeKeyPress key
  end.

(** stepReplay.  [nth_error] finds no step exactly when
    [currentReplayStep >= replaySteps.length]. *)
Definition stepReplay : Async unit :=
  s <~ get ;;
  if negb (isReplaying s) then emit (Alert "Please start replay first")
  else
    match nth_error (replaySteps s) (currentReplayStep s) with
    | None => stopReplay
    | Some step =>
        highlightReplayStep (currentReplayStep s) ;;;
        updateReplayProgress ;;;
        try_
          (executeAction step ;;;
           s <~ get ;;
           set_currentReplayStep (S (currentReplayStep s)) ;;;
           s <~ get ;;
           if Nat.leb (List.length (replaySteps s)) (currentReplayStep s)
           then stopReplay
           else updateReplayProgress)
          (emit (ConsoleError "Error executing step:") ;;;
           stopReplay)
    end.

End Engine.

End Panel.

(* ===================================================================== *)
(** ** The ranked list, stated on its own                                 *)
(* ===================================================================== *)

Module Priority.


(** One entry of the ranked menu: present when its guard holds. *)
Definition opt {A} (guard : bool) (x : A) : list A := if guard then [x] else [].

(** The name of a role locator: the name attribute, else the aria-label,
    else the trimmed text. *)
Definition roleName (element : Element) : string :=
  or_else (getAttribute element "name")
    (or_else (getAttribute element "aria-label") (trim (textContent element))).

(** The entries ranked above the href locator. *)
Definition above (element : Element) : list Locator :=
  opt (truthy_opt (getAttribute element "role") && truthy (roleName element))
      (LRole (or_empty (getAttribute element "role")) (roleName element))
  ++ opt (truthy_opt (getAttribute element "data-testid"))
         (LDataTestid (or_empty (getAttribute element "data-testid")))
  ++ opt (truthy (id element) && negb (isDynamicId (id element)))
         (LId (id element)).

(** The href entry: for an anchor with a link, the path of the URL unless
    it is empty or the root. *)
Definition hrefEntry (URL_pathname : string -> Outcome string) (element : Element)
  : Outcome (list Locator) :=
  if String.eqb (tagName element) "A" && truthy (href element) then
    path <- URL_pathname (href element) ;;
    ret (opt (truthy path && negb (String.eqb path "/")) (LHref path))
  else ret [].

(** The entries ranked below the href locator. *)
Definition below (element : Element) : list Locator :=
  opt (truthy (title element)) (LTitle (title element))
  ++ opt (truthy (trim (textContent element))
          && Nat.ltb (String.length (trim (textContent element))) 100)
         (LText (trim (textContent element)))
  ++ opt (isWebSearchButton element) (LWebSearch "Web search button")
  ++ opt (isComposerPlusButton element) (LComposerPlus "Composer plus button")
  ++ opt (truthy (generateCSSSelector element)) (LCss (generateCSSSelector element))
  ++ opt (truthy (generateSimpleXPath element)) (LXPath (generateSimpleXPath element)).

(** An id that looks generated: one the classifier accepts, among them
    every alphanumeric token of 20 or more characters and every id that
    starts with one of the four library prefixes. *)
Definition dynamicLooking (id : string) : Prop :=
  isDynamicId id = true
  \/ (20 <= String.length id /\ all_chars is_alnum id = true)
  \/ (exists p, In p ["react-select"; "mui-"; "chakra-"; "rc-"]
                /\ startsWith id p = true).


End Priority.

(* ===================================================================== *)
(** ** Notions used to state the properties                               *)
(* ===================================================================== *)

Module Notions.

(** *** Resolver *)

(** The selector resolveLocator builds for a test id. *)
Definition testidSelector (testId : string) : string :=
  "[data-testid=" ++ quoted testId ++ "]".

(** A locator fails on a document: its attempt raises, or ends without
    returning anything. *)
Definition fails (document : Document) (locator : Locator) : Prop :=
  tryLocator document locator = Throw \/ tryLocator document locator = Ok None.

(** *** Capture *)
















(** *** Typing *)



(** *** Side panel *)

(** The effects that are calls into the browser (the rest are messages
    on the console and updates of the panel's own display). *)
Definition isCall (e : Panel.Effect) : bool :=
  match e with
  | Panel.ExecuteScript | Panel.SendMessage _ | Panel.Wait _
  | Panel.TabsUpdate _ => true
  | _ => false
  end.

Definition calls (effects : list Panel.Effect) : list Panel.Effect :=
  filter isCall effects.

Definition isReplayClick (e : Panel.Effect) : bool :=
  match e with
  | Panel.SendMessage (Panel.REPLAY_CLICK _) => true
  | _ => false
  end.

End Notions.

Import Notions.

(* ===================================================================== *)
(** ** Concrete pages, clocks and browsers                                *)
(* ===================================================================== *)

Module Examples.

Import MiniDom.

(** The URL parser on the one link of the examples. *)
Definition pathname (href : string) : Outcome string :=
  if String.eqb href "https://example.org/docs/intro?x=1" then Ok "/docs/intro"
  else Throw.

(** A button whose id is the sixteen-character token the specification
    quotes as an example of a generated id. *)
Definition tokenButton : Element :=
  element "BUTTON" [("id", "a1b2c3d4e5f6g7h8")] "".

(** A button whose id is eight hexadecimal digits. *)
Definition hexButton : Element :=
  element "BUTTON" [("id", "deadbeef"); ("class", "btn primary")] "Save".


(** A page on which two elements carry the same test id. *)
Definition goButton : Element := element "BUTTON" [("data-testid", "go")] "Go".
Definition goLink : Element := element "A" [("data-testid", "go")] "Go now".
Definition twoGo : Document := document_of (mkPage [goButton; goLink] None).

(** A page with a form. *)
Definition submitButton : Element :=
  element "BUTTON" [("data-testid", "send"); ("title", "Send it")] " Submit ".
Definition laterButton : Element := element "BUTTON" [] "Submit now".
Definition form : Document :=
  document_of (mkPage [laterButton; submitButton] None).




(** A page with a focused text field that already holds some text. *)
Definition draftField : Element :=
  field "TEXTAREA" [("placeholder", "Message")] "old draft".
Definition chat : Document := document_of (mkPage [draftField] (Some draftField)).

(** A page without any field. *)
Definition blank : Document :=
  document_of (mkPage [element "P" [] "Nothing here"] None).

(** A browser in which injection and delivery work and the page never
    finds the element: every locator resolution comes back null. *)
Definition noMatchBrowser : Panel.Browser :=
  Panel.mkBrowser (fun _ => true) (fun _ _ => Ok (Panel.Success true))
                  (fun _ _ => true) (fun _ _ => None).

(** A browser whose tab is gone: nothing can be injected or delivered. *)
Definition deadTabBrowser : Panel.Browser :=
  Panel.mkBrowser (fun _ => false) (fun _ _ => Throw) (fun _ _ => false)
                  (fun _ _ => None).

(** A browser in which delivery fails though injection works. *)
Definition deafBrowser : Panel.Browser :=
  Panel.mkBrowser (fun _ => true) (fun _ _ => Throw) (fun _ _ => true)
                  (fun _ _ => None).

(** A replay of three steps, started, with the cursor on the click. *)
Definition clickThenType : Panel.Recorder :=
  Panel.mkRecorder true
    [ mkStep 0 (Navigate "https://example.org/start");
      mkStep 900 (Click [LDataTestid "go"; LText "Go"]);
      mkStep 2400 (TypeText "hello") ]
    1 false [].

End Examples.

(* ===================================================================== *)
(** ** Properties                                                         *)
(* ===================================================================== *)

Import Priority Typing Examples.

Lemma truthy_length (s : string) : truthy s = Nat.ltb 0 (String.length s).
Proof. destruct s; reflexivity. Qed.

Lemma truthy_true_iff (s : string) : truthy s = true <-> s <> "".
Proof. destruct s; simpl; split; congruence. Qed.

Lemma truthy_trim (s : string) : truthy (trim s) = true -> truthy s = true.
Proof. destruct s; simpl; [discriminate | reflexivity]. Qed.

Lemma push_when {A} (g : bool) (l : list A) (x : A) :
  (if g then (l ++ [x])%list else l) = (l ++ opt g x)%list.
Proof. destruct g; simpl; [reflexivity | now rewrite app_nil_r]. Qed.

Lemma if_if {A} (a b : bool) (x y : A) :
  (if a then (if b then x else y) else y) = (if a && b then x else y).
Proof. destruct a, b; reflexivity. Qed.

Lemma ret_when {A} (g : bool) (l : list A) (x : A) :
  (if g then Ok (l ++ [x])%list else Ok l) = Ok (l ++ opt g x)%list.
Proof. destruct g; simpl; [reflexivity | now rewrite app_nil_r]. Qed.

Lemma opt_false {A} (x : A) : opt false x = [].
Proof. reflexivity. Qed.

(** generateLocators builds the list entry by entry, in this order. *)
Lemma generateLocators_eq (URL_pathname : string -> Outcome string) (element : Element) :
  generateLocators URL_pathname element =
  (h <- hrefEntry URL_pathname element ;;
   ret (above element ++ h ++ below element)%list).
Proof.
  unfold generateLocators, hrefEntry, above, below, roleName, push, try_catch, ret.
  cbv zeta.
  destruct (String.eqb (tagName element) "A" && truthy (href element));
    unfold bind; [ destruct (URL_pathname (href element)) as [path|] | ];
    try reflexivity;
    repeat (rewrite ?push_when, ?if_if, ?ret_when);
    rewrite <- ?truthy_length;
    destruct (truthy_opt (getAttribute element "role"));
    (destruct (truthy (trim (textContent element))) eqn:Htrim;
     [ rewrite (truthy_trim _ Htrim) | rewrite ?Bool.andb_false_r ]);
    cbn [andb app]; rewrite ?opt_false, ?app_nil_r, <- ?app_assoc; cbn [app];
    rewrite ?app_nil_r; reflexivity.
Qed.

Lemma In_opt {A} (g : bool) (x y : A) : In y (opt g x) <-> g = true /\ y = x.
Proof.
  destruct g; simpl; split; intros H.
  - destruct H as [H|[]]; auto.
  - destruct H as [_ ->]; auto.
  - destruct H.
  - destruct H; discriminate.
Qed.

(** The href entry holds the path locator, or nothing. *)
Lemma hrefEntry_shape (URL_pathname : string -> Outcome string) (element : Element)
  (h : list Locator) :
  hrefEntry URL_pathname element = Ok h ->
  exists g p, h = opt g (LHref p) /\
    (g = true ->
       tagName element = "A" /\ truthy (href element) = true /\
       URL_pathname (href element) = Ok p /\ truthy p = true /\ p <> "/").
Proof.
  unfold hrefEntry, bind, ret.
  destruct (String.eqb (tagName element) "A") eqn:Htag; simpl.
  - destruct (truthy (href element)) eqn:Hhref.
    + destruct (URL_pathname (href element)) as [p|] eqn:Hp; [|discriminate].
      intros [= <-]. exists (truthy p && negb (String.eqb p "/")), p.
      split; [reflexivity|]. intros Hg.
      apply Bool.andb_true_iff in Hg as [Ht Hn].
      apply Bool.negb_true_iff, String.eqb_neq in Hn.
      apply String.eqb_eq in Htag. auto.
    + intros [= <-]. exists false, "". split; [reflexivity | discriminate].
  - intros [= <-]. exists false, "". split; [reflexivity | discriminate].
Qed.

(** What generateLocators returns, when it returns. *)
Lemma generateLocators_Ok (URL_pathname : string -> Outcome string) (element : Element)
  (ls : list Locator) :
  generateLocators URL_pathname element = Ok ls ->
  exists h, hrefEntry URL_pathname element = Ok h /\
            ls = (above element ++ h ++ below element)%list.
Proof.
  rewrite generateLocators_eq. unfold bind, ret.
  destruct (hrefEntry URL_pathname element) as [h|]; [|discriminate].
  intros [= <-]. exists h. auto.
Qed.


Ltac split_in H :=
  repeat (rewrite in_app_iff in H || rewrite In_opt in H);
  repeat match type of H with
         | _ \/ _ => destruct H as [H|H]
         end;
  try (destruct H as [_ H]; discriminate H).

(** The id locator is there exactly for a non-empty id the classifier
    rejects. *)
Lemma generated_id (URL_pathname : string -> Outcome string) (element : Element)
  (ls : list Locator) (v : string) :
  generateLocators URL_pathname element = Ok ls ->
  (In (LId v) ls <->
   v = id element /\ truthy v = true /\ isDynamicId v = false).
Proof.
  intros H. apply generateLocators_Ok in H as (h & Hh & ->).
  apply hrefEntry_shape in Hh as (g & p & -> & _).
  unfold above, below. split.
  - intros H. split_in H.
    destruct H as [Hg [= ->]].
    apply Bool.andb_true_iff in Hg as [? Hd].
    apply Bool.negb_true_iff in Hd. auto.
  - intros (-> & Ht & Hd).
    rewrite !in_app_iff, !In_opt. left. right. right.
    rewrite Ht, Hd. auto.
Qed.

(** The css locator carries the selector generateCSSSelector builds. *)
Lemma generated_css (URL_pathname : string -> Outcome string) (element : Element)
  (ls : list Locator) (s : string) :
  generateLocators URL_pathname element = Ok ls ->
  (In (LCss s) ls <-> s = generateCSSSelector element /\ truthy s = true).
Proof.
  intros H. apply generateLocators_Ok in H as (h & Hh & ->).
  apply hrefEntry_shape in Hh as (g & p & -> & _).
  unfold above, below. split.
  - intros H. split_in H.
    destruct H as [Hg [= ->]]. auto.
  - intros (-> & Ht).
    rewrite !in_app_iff, !In_opt. right. right. right. right. right. right. left.
    auto.
Qed.

(** *** The dynamic-id classifier *)

Lemma isDynamicId_patterns (id : string) :
  isDynamicId id =
  re_radix id || (re_long_hex id || (re_long_alnum id || (re_uuid_like id ||
  (re_react_select id || (re_mui id || (re_chakra id || (re_rc id || false))))))).
Proof. reflexivity. Qed.

Lemma all_chars_impl (p q : ascii -> bool) (s : string) :
  (forall c, p c = true -> q c = true) ->
  all_chars p s = true -> all_chars q s = true.
Proof.
  intros Hpq. induction s as [|c s IH]; simpl; [reflexivity|].
  intros H. apply Bool.andb_true_iff in H as [Hc Hs].
  rewrite (Hpq _ Hc), (IH Hs). reflexivity.
Qed.

Lemma hex_is_alnum (c : ascii) : is_hex_lower c = true -> is_alnum c = true.
Proof.
  unfold is_hex_lower, is_alnum, is_lower, is_upper, is_digit, in_range.
  intros H. apply Bool.orb_true_iff in H as [H|H].
  - apply Bool.andb_true_iff in H as [Hlo Hhi].
    apply Nat.leb_le in Hlo, Hhi.
    replace (Nat.leb 97 (code c) && Nat.leb (code c) 122) with true; [reflexivity|].
    symmetry. apply Bool.andb_true_iff. split; apply Nat.leb_le; lia.
  - rewrite H. apply Bool.orb_true_r.
Qed.

Lemma long_hex_dynamic (id : string) :
  8 <= String.length id -> all_chars is_hex_lower id = true -> isDynamicId id = true.
Proof.
  intros Hlen Hhex. rewrite isDynamicId_patterns. unfold re_long_hex.
  apply Nat.leb_le in Hlen. rewrite Hlen, Hhex. simpl. apply Bool.orb_true_r.
Qed.

Lemma long_alnum_dynamic (id : string) :
  20 <= String.length id -> all_chars is_alnum id = true -> isDynamicId id = true.
Proof.
  intros Hlen Hal. rewrite isDynamicId_patterns. unfold re_long_alnum.
  apply Nat.leb_le in Hlen. rewrite Hlen, Hal. simpl.
  rewrite !Bool.orb_true_r. reflexivity.
Qed.

Lemma prefixed_dynamic (id p : string) :
  In p ["react-select"; "mui-"; "chakra-"; "rc-"] ->
  startsWith id p = true -> isDynamicId id = true.
Proof.
  intros Hin Hp. rewrite isDynamicId_patterns.
  unfold re_react_select, re_mui, re_chakra, re_rc.
  simpl in Hin. destruct Hin as [<-|[<-|[<-|[<-|[]]]]]; rewrite Hp;
    rewrite ?Bool.orb_true_r; reflexivity.
Qed.

Lemma dynamicLooking_dynamic (id : string) : dynamicLooking id -> isDynamicId id = true.
Proof.
  intros [H | [[Hlen Hal] | (p & Hin & Hp)]].
  - exact H.
  - now apply long_alnum_dynamic.
  - now apply (prefixed_dynamic id p).
Qed.

(** *** Removing the id attribute *)

Lemma lookup_filter (name k : string) (attrs : list (string * string)) :
  lookup k (filter (fun kv => negb (String.eqb (fst kv) name)) attrs) =
  if String.eqb k name then None else lookup k attrs.
Proof.
  induction attrs as [|[a v] attrs IH]; simpl.
  - now destruct (String.eqb k name).
  - destruct (String.eqb a name) eqn:Han; simpl.
    + rewrite IH. destruct (String.eqb k name) eqn:Hkn; [reflexivity|].
      destruct (String.eqb a k) eqn:Hak; [|reflexivity].
      apply String.eqb_eq in Hak, Han. subst.
      rewrite String.eqb_refl in Hkn. discriminate.
    + destruct (String.eqb a k) eqn:Hak.
      * apply String.eqb_eq in Hak. subst. now rewrite Han.
      * exact IH.
Qed.

Lemma getAttribute_removeAttribute (element : Element) (name k : string) :
  getAttribute (removeAttribute element name) k =
  if String.eqb k name then None else getAttribute element k.
Proof. unfold getAttribute, removeAttribute. simpl. apply lookup_filter. Qed.

(** For an id the classifier accepts, the generated selector is the one
    the element would get without any id. *)
Lemma css_ignores_dynamic_id (element : Element) :
  isDynamicId (id element) = true ->
  generateCSSSelector element = generateCSSSelector (removeAttribute element "id").
Proof.
  intros Hd. unfold generateCSSSelector, id, className, title.
  rewrite !getAttribute_removeAttribute. simpl String.eqb.
  fold (id element). rewrite Hd. cbn [negb].
  rewrite Bool.andb_false_r. cbn [or_empty or_else truthy andb].
  reflexivity.
Qed.

(** *** Claims on the generator *)

(** C9.  For an id made only of lowercase hexadecimal digits, the pure-hex
    pattern fires from 8 characters on while the general alphanumeric
    pattern fires only from 20 on; from 8 characters on the classifier
    answers true, so that no id locator is generated for an element with
    such an id. *)
Theorem C9_hex_id_of_eight_is_dynamic (i : string) :
  all_chars is_hex_lower i = true ->
  (re_long_hex i = true <-> 8 <= String.length i) /\
  (re_long_alnum i = true <-> 20 <= String.length i) /\
  (8 <= String.length i ->
   isDynamicId i = true /\
   forall URL_pathname element ls,
     id element = i ->
     generateLocators URL_pathname element = Ok ls ->
     forall v, ~ In (LId v) ls).
Proof.
  intros Hhex.
  assert (Hal : all_chars is_alnum i = true)
    by (apply (all_chars_impl is_hex_lower); [apply hex_is_alnum | exact Hhex]).
  unfold re_long_hex, re_long_alnum. rewrite Hhex, Hal, !Bool.andb_true_r.
  split; [apply Nat.leb_le|]. split; [apply Nat.leb_le|].
  intros Hlen. pose proof (long_hex_dynamic i Hlen Hhex) as Hd.
  split; [exact Hd|].
  intros URL_pathname element ls Hid Hgen v Hin.
  apply (generated_id _ _ _ _ Hgen) in Hin as (-> & _ & Hnd).
  rewrite Hid in Hnd. congruence.
Qed.

Lemma C9_witness :
  all_chars is_hex_lower "deadbeef" = true /\
  isDynamicId "deadbeef" = true /\
  generateLocators pathname hexButton
  = Ok [LText "Save"; LCss "button.btn.primary"; LXPath "/button"] /\
  forall v, ~ In (LId v) [LText "Save"; LCss "button.btn.primary"; LXPath "/button"].
Proof.
  split; [reflexivity|].
  destruct (C9_hex_id_of_eight_is_dynamic "deadbeef" eq_refl) as (_ & _ & H).
  destruct H as [Hd Hno]; [simpl; lia|].
  split; [exact Hd|]. split; [reflexivity|].
  exact (Hno pathname hexButton _ eq_refl eq_refl).
Defined.

(** C3, as the code has it.  For every element whose id the classifier
    accepts as dynamic - among them every alphanumeric token of 20 or more
    characters and every id starting with react-select, mui-, chakra- or
    rc- - no id locator is generated, and the generated CSS selector is
    the one the element would get without its id; the css locator of the
    list carries that selector. *)
Theorem C3_dynamic_id_never_used (URL_pathname : string -> Outcome string)
  (element : Element) (ls : list Locator) :
  dynamicLooking (id element) ->
  generateLocators URL_pathname element = Ok ls ->
  isDynamicId (id element) = true /\
  (forall v, ~ In (LId v) ls) /\
  generateCSSSelector element = generateCSSSelector (removeAttribute element "id") /\
  (forall s, In (LCss s) ls -> s = generateCSSSelector (removeAttribute element "id")).
Proof.
  intros Hlook Hgen. pose proof (dynamicLooking_dynamic _ Hlook) as Hd.
  split; [exact Hd|]. split; [|split].
  - intros v Hin. apply (generated_id _ _ _ _ Hgen) in Hin as (-> & _ & Hnd).
    congruence.
  - now apply css_ignores_dynamic_id.
  - intros s Hin. apply (generated_css _ _ _ _ Hgen) in Hin as [-> _].
    now apply css_ignores_dynamic_id.
Qed.

Lemma C3_witness :
  dynamicLooking "mui-4821" /\
  generateLocators pathname
    (MiniDom.element "DIV" [("id", "mui-4821"); ("class", "menu")] "")
  = Ok [LCss "div.menu"; LXPath "/div"] /\
  forall v, ~ In (LId v) [LCss "div.menu"; LXPath "/div"].
Proof.
  assert (Hlook : dynamicLooking "mui-4821").
  { right. right. exists "mui-". split; [simpl; auto | reflexivity]. }
  split; [exact Hlook|]. split; [reflexivity|].
  exact (proj1 (proj2 (C3_dynamic_id_never_used pathname
           (MiniDom.element "DIV" [("id", "mui-4821"); ("class", "menu")] "")
           _ Hlook eq_refl))).
Defined.

(** C3 as stated fails on its own example: the sixteen-character id
    a1b2c3d4e5f6g7h8 matches none of the patterns (it has the letters g
    and h and fewer than 20 characters), so the element gets an id locator
    and the selector uses the id. *)
Lemma C3_counterexample :
  isDynamicId "a1b2c3d4e5f6g7h8" = false /\
  exists ls,
    generateLocators pathname tokenButton = Ok ls /\
    In (LId "a1b2c3d4e5f6g7h8") ls /\
    In (LCss "#a1b2c3d4e5f6g7h8") ls /\
    generateCSSSelector tokenButton = "#a1b2c3d4e5f6g7h8".
Proof.
  split; [reflexivity|].
  eexists. split; [reflexivity|].
  split; [simpl; auto|]. split; [simpl; auto | reflexivity].
Qed.

(** *** The order of the generated list *)











(** *** Claims on the resolver *)

Lemma resolveLocator_cons (document : Document) (locator : Locator)
  (rest : list Locator) :
  resolveLocator document (locator :: rest) =
  match tryLocator document locator with
  | Ok (Some found) => Ok (Some found)
  | _ => resolveLocator document rest
  end.
Proof.
  simpl. unfold try_catch, bind, ret.
  destruct (tryLocator document locator) as [[found|]|]; reflexivity.
Qed.

(** Locators that fail are passed over. *)
Lemma resolveLocator_skip (document : Document) (pre rest : list Locator) :
  Forall (fails document) pre ->
  resolveLocator document (pre ++ rest) = resolveLocator document rest.
Proof.
  induction 1 as [|l pre [Hl|Hl] _ IH]; [reflexivity| |];
    rewrite <- app_comm_cons, resolveLocator_cons, Hl; exact IH.
Qed.

(** C4.  resolveLocator never raises.  Either some locator of the list
    resolves: then every locator before the first such one failed - by
    raising, which is absorbed, or by finding nothing - and the result is
    what that first one returned; or every locator fails and the result is
    null. *)
Theorem C4_first_resolving_locator_or_null (document : Document)
  (locators : list Locator) :
  (exists pre l post found,
      locators = (pre ++ l :: post)%list /\
      Forall (fails document) pre /\
      tryLocator document l = Ok (Some found) /\
      resolveLocator document locators = Ok (Some found))
  \/ (Forall (fails document) locators /\
      resolveLocator document locators = Ok None).
Proof.
  induction locators as [|l rest IH].
  - right. split; [constructor | reflexivity].
  - rewrite resolveLocator_cons.
    destruct (tryLocator document l) as [[found|]|] eqn:Hl.
    + left. exists [], l, rest, found. repeat split; auto.
    + destruct IH as [(pre & l' & post & found & -> & Hpre & Hl' & Hres) | [Hall Hres]].
      * left. exists (l :: pre), l', post, found.
        repeat split; auto. constructor; [right; exact Hl | exact Hpre].
      * right. split; [|exact Hres]. constructor; [right; exact Hl | exact Hall].
    + destruct IH as [(pre & l' & post & found & -> & Hpre & Hl' & Hres) | [Hall Hres]].
      * left. exists (l :: pre), l', post, found.
        repeat split; auto. constructor; [left; exact Hl | exact Hpre].
      * right. split; [|exact Hres]. constructor; [left; exact Hl | exact Hall].
Qed.

(** On the form page: a test id with a quote in it makes the query raise,
    the next locator finds nothing, and the text locator resolves to the
    button whose trimmed text is exactly Submit. *)
Example resolve_after_failures :
  tryLocator form (LDataTestid ("se" ++ dq ++ "nd")) = Throw /\
  tryLocator form (LId "missing") = Ok None /\
  resolveLocator form
    [LDataTestid ("se" ++ dq ++ "nd"); LId "missing"; LText "Submit"; LXPath "/x"]
  = Ok (Some (RElement submitButton)).
Proof. repeat split; reflexivity. Qed.

Lemma tryLocator_testid (document : Document) (v : string) :
  truthy v = true ->
  tryLocator document (LDataTestid v) =
  (matches <- querySelectorAll document (testidSelector v) ;;
   match matches with
   | [] => ret None
   | _ :: _ => ret (Some (RSelector (testidSelector v)))
   end).
Proof.
  intros Hv. unfold tryLocator, or_then, return_if_present, querySelector, testidSelector.
  simpl. rewrite Hv. unfold bind, ret.
  destruct (querySelectorAll document _) as [[|e els]|]; reflexivity.
Qed.

(** C2, as the code has it.  A data-testid locator with a test id is
    resolved through the attribute-equality selector on that value and is
    accepted when the selector matches at least one element of the live
    document, however many; with no match the Resolver goes on to the
    next locator. *)
Theorem C2_testid_accepted_on_any_match (document : Document)
  (pre post : list Locator) (v : string) (matches : list Element) :
  Forall (fails document) pre ->
  truthy v = true ->
  querySelectorAll document (testidSelector v) = Ok matches ->
  resolveLocator document (pre ++ LDataTestid v :: post) =
  match matches with
  | [] => resolveLocator document post
  | _ :: _ => Ok (Some (RSelector (testidSelector v)))
  end.
Proof.
  intros Hpre Hv Hq.
  rewrite (resolveLocator_skip _ _ _ Hpre), resolveLocator_cons.
  rewrite (tryLocator_testid _ _ Hv), Hq. unfold bind, ret.
  destruct matches; reflexivity.
Qed.

Lemma C2_witness :
  resolveLocator form [LId "missing"; LDataTestid "send"; LTitle "Send it"]
  = Ok (Some (RSelector (testidSelector "send"))).
Proof.
  apply (C2_testid_accepted_on_any_match form [LId "missing"]
           [LTitle "Send it"] "send" [submitButton]).
  - constructor; [right; reflexivity | constructor].
  - reflexivity.
  - reflexivity.
Defined.

(** C2 as stated fails: on a page where two elements carry the test id
    go, the selector matches both and the locator is accepted all the
    same. *)
Lemma C2_counterexample :
  querySelectorAll twoGo (testidSelector "go")
  = Ok [goButton; goLink] /\
  resolveLocator twoGo [LDataTestid "go"]
  = Ok (Some (RSelector (testidSelector "go"))).
Proof. split; reflexivity. Qed.

(** *** The capture engine *)











(** *** Timestamps *)








(** *** The steps only grow *)














(** *** Pending timeouts *)
















(** *** No type step repeats the one before it *)

















(** *** The replay-type executor *)


Lemma inserted_app (a b : list Effect) :
  inserted (a ++ b) = (inserted a ++ inserted b)%string.
Proof.
  induction a as [|e a IH]; simpl; [reflexivity|].
  destruct e; simpl; rewrite ?IH; reflexivity.
Qed.









(** A focused element that is suitable is the one typed into. *)
Lemma chooseInput_focused (document : Document) (e : Element) :
  activeElement document = Some e -> suitable e = true ->
  chooseInput document = Ok (Some e).
Proof. intros Ha Hs. unfold chooseInput. rewrite Ha, Hs. reflexivity. Qed.




(** On the chat page the focused draft is cleared and the text typed into
    it; on a page without any field the promise is fulfilled with false. *)
Example replay_type_on_pages :
  settled (snd (executeReplayType chat "Hi there.")) = Fulfilled true /\
  option_map Dom.value (fst (executeReplayType chat "Hi there.")) = Some "Hi there." /\
  inserted (snd (executeReplayType chat "Hi there.")) = "Hi there." /\
  executeReplayType blank "Hi there." = (None, [Resolve false]).
Proof. repeat split; vm_compute; reflexivity. Qed.

(** *** The messenger *)

Ltac panel :=
  cbv [Panel.sendMessageToContentScript Panel.ensureContentScriptInjected
       Panel.chrome_scripting_executeScript Panel.chrome_tabs_sendMessage
       Panel.chrome_tabs_update Panel.sleep Panel.resolveLocator
       Panel.try_ Panel.await Panel.pure Panel.raise Panel.emit Panel.get
       Panel.set_isReplaying Panel.set_currentReplayStep Panel.set_isPaused
       Panel.stopReplay Panel.updateReplayProgress Panel.highlightReplayStep
       Panel.executeNavigation Panel.executeClick Panel.executeType
       Panel.executeKeyPress Panel.executeAction Panel.stepReplay
       Panel.isReplaying Panel.replaySteps Panel.currentReplayStep
       Panel.isPaused Panel.log fst snd] in *.

(** sendMessageToContentScript, path by path.  [n] is the number of
    effects before the call. *)
Ltac norm_index :=
  rewrite ?length_app; cbn [List.length];
  rewrite <- ?Nat.add_assoc; cbn [Nat.add];
  rewrite <- ?app_assoc; cbn [app].

Lemma sendMessage_paths (browser : Panel.Browser) (message : Panel.Request)
  (s : Panel.Recorder) :
  let n := List.length (Panel.log s) in
  exists (r : option Panel.Response) (done : list Panel.Effect),
    Panel.sendMessageToContentScript browser message s
    = (Ok r, Panel.mkRecorder (Panel.isReplaying s) (Panel.replaySteps s)
                              (Panel.currentReplayStep s) (Panel.isPaused s)
                              (Panel.log s ++ done)) /\
    List.length done <= 7 /\
    forallb (fun e => negb (isReplayClick e)
                      || match message with Panel.REPLAY_CLICK _ => true | _ => false end)
            done = true /\
    exists first retry,
      calls done = (first ++ retry)%list /\
      ((Panel.executeScript browser n = true /\
        first = [Panel.ExecuteScript; Panel.SendMessage message]) \/
       (Panel.executeScript browser n = false /\ first = [Panel.ExecuteScript])) /\
      ((retry = [] /\ Panel.executeScript browser n = true /\
        exists response, Panel.sendMessage browser (n + 1) message = Ok response /\
                         r = Some response)
       \/
       ((Panel.executeScript browser n = false \/
         Panel.sendMessage browser (n + 1) message = Throw) /\
        ((retry = [Panel.ExecuteScript; Panel.Wait 1000; Panel.SendMessage message] /\
          Panel.executeScript browser (n + 3) = true /\
          ((exists response,
              Panel.sendMessage browser (n + 5) message = Ok response /\
              r = Some response)
           \/ (Panel.sendMessage browser (n + 5) message = Throw /\ r = None)))
         \/
         (retry = [Panel.ExecuteScript] /\
          Panel.executeScript browser (n + 3) = false /\ r = None)))).
Proof.
  destruct s as [rep steps cur paused lg]. intros n. subst n. panel.
  destruct (Panel.executeScript browser (List.length lg)) eqn:Hinj; panel;
    norm_index.
  - destruct (Panel.sendMessage browser (List.length lg + 1) message)
      as [response|] eqn:Hsend; panel;
      norm_index.
    + exists (Some response), [Panel.ExecuteScript; Panel.SendMessage message].
      rewrite <- ?app_assoc; cbn [app].
      split; [reflexivity|]. split; [simpl; lia|]. split; [destruct message; reflexivity|].
      exists [Panel.ExecuteScript; Panel.SendMessage message], [].
      split; [reflexivity|]. split; [left; auto|]. left. eauto 6.
    + destruct (Panel.executeScript browser (List.length lg + 3)) eqn:Hinj2; panel;
        norm_index.
      * destruct (Panel.sendMessage browser (List.length lg + 5) message)
          as [response|] eqn:Hsend2; panel; norm_index.
        -- eexists (Some response), _. rewrite <- ?app_assoc; cbn [app].
           split; [reflexivity|]. split; [simpl; lia|]. split; [destruct message; reflexivity|].
           exists [Panel.ExecuteScript; Panel.SendMessage message],
                  [Panel.ExecuteScript; Panel.Wait 1000; Panel.SendMessage message].
           split; [reflexivity|]. split; [left; auto|]. right. split; [auto|].
           left. split; [reflexivity|]. split; [reflexivity|]. left. eauto.
        -- eexists None, _. rewrite <- ?app_assoc; cbn [app].
           split; [reflexivity|]. split; [simpl; lia|]. split; [destruct message; reflexivity|].
           exists [Panel.ExecuteScript; Panel.SendMessage message],
                  [Panel.ExecuteScript; Panel.Wait 1000; Panel.SendMessage message].
           split; [reflexivity|]. split; [left; auto|]. right. split; [auto|].
           left. split; [reflexivity|]. split; [reflexivity|]. right. auto.
      * eexists None, _. rewrite <- ?app_assoc; cbn [app].
        split; [reflexivity|]. split; [simpl; lia|]. split; [destruct message; reflexivity|].
        exists [Panel.ExecuteScript; Panel.SendMessage message], [Panel.ExecuteScript].
        split; [reflexivity|]. split; [left; auto|]. right. split; [auto|].
        right. auto.
  - destruct (Panel.executeScript browser (List.length lg + 3)) eqn:Hinj2; panel;
      norm_index.
    + destruct (Panel.sendMessage browser (List.length lg + 5) message)
        as [response|] eqn:Hsend2; panel; norm_index.
      * eexists (Some response), _. rewrite <- ?app_assoc; cbn [app].
        split; [reflexivity|]. split; [simpl; lia|]. split; [destruct message; reflexivity|].
        exists [Panel.ExecuteScript],
               [Panel.ExecuteScript; Panel.Wait 1000; Panel.SendMessage message].
        split; [reflexivity|]. split; [right; auto|]. right. split; [auto|].
        left. split; [reflexivity|]. split; [reflexivity|]. left. eauto.
      * eexists None, _. rewrite <- ?app_assoc; cbn [app].
        split; [reflexivity|]. split; [simpl; lia|]. split; [destruct message; reflexivity|].
        exists [Panel.ExecuteScript],
               [Panel.ExecuteScript; Panel.Wait 1000; Panel.SendMessage message].
        split; [reflexivity|]. split; [right; auto|]. right. split; [auto|].
        left. split; [reflexivity|]. split; [reflexivity|]. right. auto.
    + eexists None, _. rewrite <- ?app_assoc; cbn [app].
      split; [reflexivity|]. split; [simpl; lia|]. split; [destruct message; reflexivity|].
      exists [Panel.ExecuteScript], [Panel.ExecuteScript].
      split; [reflexivity|]. split; [right; auto|]. right. split; [auto|].
      right. auto.
Qed.

(** C8.  sendMessageToContentScript never raises.  When the first attempt
    (inject, then send) succeeds its response is returned and nothing more
    is done.  When it fails - the injection or the send raising - exactly
    one retry follows: the script is injected again and, if that works,
    the messenger waits 1000 ms and sends the message once more; the
    response of that second send is returned, and when the retry fails,
    at the injection or at the send, the result is null.  [n] is the
    number of effects before the call. *)
Theorem C8_one_retry_then_null (browser : Panel.Browser) (message : Panel.Request)
  (s : Panel.Recorder) :
  let n := List.length (Panel.log s) in
  exists (r : option Panel.Response) (done : list Panel.Effect),
    Panel.sendMessageToContentScript browser message s
    = (Ok r, Panel.mkRecorder (Panel.isReplaying s) (Panel.replaySteps s)
                              (Panel.currentReplayStep s) (Panel.isPaused s)
                              (Panel.log s ++ done)) /\
    ((Panel.executeScript browser n = true /\
      calls done = [Panel.ExecuteScript; Panel.SendMessage message] /\
      exists response,
        Panel.sendMessage browser (n + 1) message = Ok response /\ r = Some response)
     \/
     ((Panel.executeScript browser n = false \/
       Panel.sendMessage browser (n + 1) message = Throw) /\
      exists first,
        (first = [Panel.ExecuteScript] \/
         first = [Panel.ExecuteScript; Panel.SendMessage message]) /\
        ((Panel.executeScript browser (n + 3) = true /\
          calls done
          = (first ++ [Panel.ExecuteScript; Panel.Wait 1000; Panel.SendMessage message])%list /\
          ((exists response,
              Panel.sendMessage browser (n + 5) message = Ok response /\
              r = Some response)
           \/ (Panel.sendMessage browser (n + 5) message = Throw /\ r = None)))
         \/
         (Panel.executeScript browser (n + 3) = false /\
          calls done = (first ++ [Panel.ExecuteScript])%list /\ r = None)))).
Proof.
  intros n.
  destruct (sendMessage_paths browser message s)
    as (r & done & Hrun & _ & _ & first & retry & Hcalls & Hfirst & Hretry).
  fold n in Hfirst, Hretry. exists r, done. split; [exact Hrun|].
  destruct Hretry as [(-> & Hinj & response & Hsend & ->) | (Hfail & Hretry)].
  - left. split; [exact Hinj|]. split; [|eauto].
    rewrite Hcalls, app_nil_r.
    destruct Hfirst as [[_ ->] | [Hno _]]; [reflexivity | congruence].
  - right. split; [exact Hfail|]. exists first. split.
    + destruct Hfirst as [[_ ->] | [_ ->]]; auto.
    + destruct Hretry as [(-> & Hinj & Hsend) | (-> & Hinj & ->)]; [left | right]; auto.
Qed.

(** With the tab gone both injections fail: two calls, no wait, null.
    With a page that does not answer: inject, send, inject, wait 1000 ms,
    send, null. *)
Example messenger_gives_up :
  (exists s', Panel.sendMessageToContentScript deadTabBrowser (Panel.REPLAY_TYPE "hi")
                clickThenType = (Ok None, s') /\
              calls (Panel.log s') = [Panel.ExecuteScript; Panel.ExecuteScript]) /\
  (exists s', Panel.sendMessageToContentScript deafBrowser (Panel.REPLAY_TYPE "hi")
                clickThenType = (Ok None, s') /\
              calls (Panel.log s')
              = [Panel.ExecuteScript; Panel.SendMessage (Panel.REPLAY_TYPE "hi");
                 Panel.ExecuteScript; Panel.Wait 1000;
                 Panel.SendMessage (Panel.REPLAY_TYPE "hi")]).
Proof. split; eexists; split; reflexivity. Qed.

(** *** The replay engine *)

Ltac engine :=
  cbv [Panel.resolveLocator Panel.sleep
       Panel.try_ Panel.await Panel.pure Panel.raise Panel.emit Panel.get
       Panel.set_isReplaying Panel.set_currentReplayStep Panel.set_isPaused
       Panel.stopReplay Panel.updateReplayProgress Panel.highlightReplayStep
       Panel.executeNavigation Panel.executeClick Panel.executeType
       Panel.executeKeyPress Panel.executeAction Panel.stepReplay
       Panel.isReplaying Panel.replaySteps Panel.currentReplayStep
       Panel.isPaused Panel.log Capture.action fst snd negb] in *.

Lemma forallb_weaken {A} (f g : A -> bool) (l : list A) :
  forallb f l = true -> (forall x, f x = true -> g x = true) ->
  forallb g l = true.
Proof.
  intros Hf Hfg. rewrite forallb_forall in *. auto.
Qed.

(** C1, as the code has it.  During replay, for a click step for which
    the Locator Resolver returns the no-match signal, executeClick sends
    no click request to the page and writes an error to the console; it
    does not raise, so stepReplay goes on as after a successful step: the
    cursor advances by one and the replay stays active, or, when the step
    was the last one, the replay is torn down as completed (idle, cursor
    0). *)
Theorem C1_unresolved_click_is_passed_over (browser : Panel.Browser)
  (s : Panel.Recorder) (stamp : Z) (locators : list Locator) :
  Panel.isReplaying s = true ->
  nth_error (Panel.replaySteps s) (Panel.currentReplayStep s)
  = Some (mkStep stamp (Click locators)) ->
  (forall n, Panel.locatorResolved browser n locators = None) ->
  exists (s' : Panel.Recorder) (done : list Panel.Effect),
    Panel.stepReplay browser s = (Ok tt, s') /\
    Panel.log s' = (Panel.log s ++ done)%list /\
    forallb (fun e => negb (isReplayClick e)) done = true /\
    In (Panel.ConsoleError "Could not resolve locators:") done /\
    Panel.replaySteps s' = Panel.replaySteps s /\
    (S (Panel.currentReplayStep s) < List.length (Panel.replaySteps s) ->
     Panel.isReplaying s' = true /\
     Panel.currentReplayStep s' = S (Panel.currentReplayStep s)) /\
    (List.length (Panel.replaySteps s) <= S (Panel.currentReplayStep s) ->
     Panel.isReplaying s' = false /\ Panel.currentReplayStep s' = 0).
Proof.
  destruct s as [rep steps cur paused lg]. cbn [Panel.isReplaying Panel.replaySteps
    Panel.currentReplayStep Panel.log]. intros -> Hnth Hres.
  engine. rewrite Hnth. engine.
  destruct (sendMessage_paths browser (Panel.RESOLVE_LOCATOR locators)
              (Panel.mkRecorder true steps cur paused
                 (((lg ++ [Panel.ClearReplayHighlights])
                     ++ [Panel.HighlightReplayStep cur])
                    ++ [Panel.UpdateReplayProgress cur (List.length steps)])))
    as (r & sent & Hrun & _ & Hnoclick & _).
  engine. rewrite Hrun, Hres.
  destruct (Nat.leb (List.length steps) (S cur)) eqn:Hlast.
  - eexists _, _. split; [reflexivity|]. cbn [Panel.log Panel.replaySteps
      Panel.isReplaying Panel.currentReplayStep].
    rewrite <- !app_assoc. cbn [app].
    split; [reflexivity|]. split; [|split; [|split; [reflexivity|split]]].
    + cbn [forallb isReplayClick negb andb]. rewrite forallb_app. cbn.
      rewrite Bool.andb_true_r.
      apply (forallb_weaken _ _ _ Hnoclick). intros e. cbn.
      now rewrite Bool.orb_false_r.
    + do 3 right. apply in_or_app. right. left. reflexivity.
    + apply Nat.leb_le in Hlast. lia.
    + auto.
  - eexists _, _. split; [reflexivity|]. cbn [Panel.log Panel.replaySteps
      Panel.isReplaying Panel.currentReplayStep].
    rewrite <- !app_assoc. cbn [app].
    split; [reflexivity|]. split; [|split; [|split; [reflexivity|split]]].
    + cbn [forallb isReplayClick negb andb]. rewrite forallb_app. cbn.
      rewrite Bool.andb_true_r.
      apply (forallb_weaken _ _ _ Hnoclick). intros e. cbn.
      now rewrite Bool.orb_false_r.
    + do 3 right. apply in_or_app. right. left. reflexivity.
    + auto.
    + apply Nat.leb_gt in Hlast. lia.
Qed.

Lemma C1_witness :
  exists s',
    Panel.stepReplay noMatchBrowser clickThenType = (Ok tt, s') /\
    Panel.isReplaying s' = true /\
    Panel.currentReplayStep s' = 2.
Proof.
  destruct (C1_unresolved_click_is_passed_over noMatchBrowser clickThenType 900%Z
              [LDataTestid "go"; LText "Go"] eq_refl eq_refl (fun _ => eq_refl))
    as (s' & done & Hrun & _ & _ & _ & _ & Hnext & _).
  exists s'. split; [exact Hrun|]. apply Hnext. simpl. lia.
Defined.

(** C1 as stated fails.  With a page on which no locator resolves, the
    advance on the click step leaves the replay active with the cursor on
    the next step, and the next advance executes that step: the type
    request is sent to the page. *)
Lemma C1_counterexample :
  (forall n locators, Panel.locatorResolved noMatchBrowser n locators = None) /\
  Panel.isReplaying (snd (Panel.stepReplay noMatchBrowser clickThenType)) = true /\
  Panel.currentReplayStep (snd (Panel.stepReplay noMatchBrowser clickThenType)) = 2 /\
  In (Panel.SendMessage (Panel.REPLAY_TYPE "hello"))
     (Panel.log
        (snd (Panel.stepReplay noMatchBrowser
                (snd (Panel.stepReplay noMatchBrowser clickThenType))))).
Proof.
  split; [reflexivity|]. split; [reflexivity|]. split; [reflexivity|].
  vm_compute. tauto.
Qed.
